(** * 6502 Emulator v0.1: a shallow embedding of [src/6502.c]

    The translation unit declares six global registers and a memory array,
    and defines two functions: [reset], whose body is the single assignment
    [pc = 0xFFFC;], and [main], whose body is empty.  Globals are modelled
    as one record threaded through a small state monad. *)

From Stdlib Require Import ZArith List Bool Lia.
Import ListNotations.
Local Open Scope Z_scope.

(** ** Fixed-width unsigned integers

    A value converted to [uint16_t] is reduced modulo 2^16 (C11 6.3.1.3);
    the only conversion the file performs is the one into [pc]. *)

Definition to_uint16 (z : Z) : Z := z mod 65536.

(** ** The globals (6502.c, lines 197-204)

    [uint16_t pc; uint8_t s; uint8_t p; uint8_t a; uint8_t x; uint8_t y;
     uint8_t memory[];] *)

Record machine : Type := mkMachine {
  pc : Z;
  s : Z;
  p : Z;
  a : Z;
  x : Z;
  y : Z;
  memory : list Z
}.

Definition set_pc (v : Z) (m : machine) : machine :=
  {| pc := v; s := s m; p := p m; a := a m; x := x m; y := y m;
     memory := memory m |}.



(** Program start: objects of static storage duration are zero, and the
    tentative definition [uint8_t memory[];], still incomplete at the end
    of the translation unit, becomes an array of one element. *)
Definition power_on : machine :=
  {| pc := 0; s := 0; p := 0; a := 0; x := 0; y := 0; memory := [0] |}.

(** ** The flags of [p], in the order of the header comment of 6502.c
    (bit 7 first): N, V, the unused flag, B, D, I, Z, C. *)

Inductive flag : Type :=
  FlagN | FlagV | FlagUnused | FlagB | FlagD | FlagI | FlagZ | FlagC.

Definition flag_bit (f : flag) : Z :=
  match f with
  | FlagN => 7 | FlagV => 6 | FlagUnused => 5 | FlagB => 4
  | FlagD => 3 | FlagI => 2 | FlagZ => 1 | FlagC => 0
  end.

Definition get_flag (f : flag) (pv : Z) : bool := Z.testbit pv (flag_bit f).

(** ** C functions over the globals *)

Definition C (A : Type) : Type := machine -> A * machine.

Definition ret {A : Type} (v : A) : C A := fun m => (v, m).

Definition bind {A B : Type} (c : C A) (k : A -> C B) : C B :=
  fun m => let (v, m') := c m in k v m'.

Notation "c1 ;; c2" := (bind c1 (fun _ => c2))
  (at level 61, right associativity).

Definition exec {A : Type} (c : C A) (m : machine) : machine := snd (c m).
Definition result {A : Type} (c : C A) (m : machine) : A := fst (c m).

(** [pc = v;] the value is converted to the type of [pc]. *)
Definition assign_pc (v : Z) : C unit :=
  fun m => (tt, set_pc (to_uint16 v) m).

(** [void reset(){ pc = 0xFFFC; }] *)
Definition reset : C unit := assign_pc 0xFFFC.

(** [int main(){ }]: reaching the closing brace of [main] returns 0. *)
Definition main : C Z := ret 0.

(** Sequences of calls to the functions the file defines. *)
Inductive call : Type := CallReset | CallMain.

Definition run_call (c : call) : C unit :=
  match c with
  | CallReset => reset
  | CallMain => bind main (fun _ => ret tt)
  end.

Fixpoint run_calls (cs : list call) : C unit :=
  match cs with
  | [] => ret tt
  | c :: cs' => run_call c ;; run_calls cs'
  end.

(** Does a sequence of calls contain a call to [reset]? *)
Definition calls_reset (cs : list call) : bool :=
  existsb (fun c => match c with CallReset => true | CallMain => false end) cs.

(** ** The reset contract in the specification's words

    These definitions follow the specification, not the source: the bus is
    read at an address, a vector is a little-endian 16-bit word, and after
    [reset] the stack pointer is $FD, the Interrupt-disable flag is set and
    the PC is the word stored at $FFFC/$FFFD. *)

Definition spec_read_byte (bus : list Z) (addr : Z) : option Z :=
  nth_error bus (Z.to_nat addr).

Definition spec_read_word_le (bus : list Z) (addr : Z) : option Z :=
  match spec_read_byte bus addr,
        spec_read_byte bus (to_uint16 (addr + 1)) with
  | Some lo, Some hi => Some (Z.lor lo (Z.shiftl hi 8))
  | _, _ => None
  end.

Definition RESET_VECTOR : Z := 0xFFFC.

Definition spec_reset_post (before after : machine) : Prop :=
  s after = 0xFD /\
  get_flag FlagI (p after) = true /\
  Some (pc after) = spec_read_word_le (memory before) RESET_VECTOR.

(** A 64KB bus whose RESET vector holds $0600, and a CPU state over it with
    a legal flags byte ($20: only the unused flag). *)
Definition vector_0600_bus : list Z :=
  repeat 0 (Z.to_nat 0xFFFC) ++ [0x00; 0x06; 0x00; 0x00].

Definition sample_state : machine :=
  {| pc := 0x0600; s := 0xFF; p := 0x20; a := 0x11; x := 0x22; y := 0x33;
     memory := vector_0600_bus |}.

(** * Properties *)

(** ** Integer conversions *)


(** ** Equations of the two functions *)

Lemma exec_reset (m : machine) : exec reset m = set_pc 0xFFFC m.
Proof. reflexivity. Qed.

Lemma exec_main (m : machine) : exec main m = m.
Proof. reflexivity. Qed.

Lemma exec_bind {A B : Type} (c : C A) (k : A -> C B) (m : machine) :
  exec (bind c k) m = exec (k (result c m)) (exec c m).
Proof. unfold exec, result, bind. now destruct (c m). Qed.

Lemma exec_run_call (c : call) (m : machine) :
  exec (run_call c) m = match c with CallReset => set_pc 0xFFFC m | CallMain => m end.
Proof. now destruct c. Qed.

Lemma reset_pc (m : machine) : pc (exec reset m) = 0xFFFC.
Proof. reflexivity. Qed.


(** No call writes [p]: the flags byte is a frame of every call sequence. *)
Lemma run_call_p (c : call) (m : machine) : p (exec (run_call c) m) = p m.
Proof. now destruct c. Qed.

Lemma run_calls_p (cs : list call) (m : machine) :
  p (exec (run_calls cs) m) = p m.
Proof.
  revert m. induction cs as [| c cs IH]; intros m.
  - reflexivity.
  - cbn [run_calls]. rewrite exec_bind, IH. apply run_call_p.
Qed.

Lemma run_calls_s (cs : list call) (m : machine) :
  s (exec (run_calls cs) m) = s m.
Proof.
  revert m. induction cs as [| c cs IH]; intros m.
  - reflexivity.
  - cbn [run_calls]. rewrite exec_bind, IH. now destruct c.
Qed.

(** The flag a call sequence leaves is the flag it found. *)
Lemma run_calls_flag (f : flag) (cs : list call) (m : machine) :
  get_flag f (p (exec (run_calls cs) m)) = get_flag f (p m).
Proof. now rewrite run_calls_p. Qed.

(** On [sample_state] the three parts of the specified contract fail one
    by one. *)
Lemma sample_reset_s : s (exec reset sample_state) = 0xFF.
Proof. reflexivity. Qed.

Lemma sample_reset_I : get_flag FlagI (p (exec reset sample_state)) = false.
Proof. reflexivity. Qed.

Lemma sample_vector :
  spec_read_word_le (memory sample_state) RESET_VECTOR = Some 0x0600.
Proof. vm_compute. reflexivity. Qed.

Lemma sample_reset_pc_not_vector :
  Some (pc (exec reset sample_state)) <>
  spec_read_word_le (memory sample_state) RESET_VECTOR.
Proof. rewrite sample_vector, reset_pc. intros H. discriminate H. Qed.

(** ** Claims *)

(** C1 (as stated, refuted).  The specification's reset contract -- S = $FD,
    Interrupt-disable = 1, PC = the little-endian word at $FFFC/$FFFD --
    does not hold after [reset] on a state whose bus holds $0600 in the
    RESET vector: S stays $FF, the I flag stays clear and PC is $FFFC. *)
Lemma C1_reset_contract_fails :
  ~ spec_reset_post sample_state (exec reset sample_state).
Proof.
  intros (Hs & _ & _). rewrite sample_reset_s in Hs. discriminate Hs.
Qed.

(** C1 (amended).  For every prior CPU state, [reset] leaves the stack
    pointer and the Interrupt-disable flag as it found them, and the PC it
    yields does not depend on the prior registers: two states over the same
    bus contents are given the same PC. *)
Theorem C1_reset_keeps_S_and_I (m m' : machine)
    (Hbus : memory m = memory m') :
  s (exec reset m) = s m /\
  get_flag FlagI (p (exec reset m)) = get_flag FlagI (p m) /\
  pc (exec reset m) = pc (exec reset m').
Proof. repeat split. Qed.

Lemma C1_reset_keeps_S_and_I_witness :
  memory power_on = memory (exec reset power_on) /\
  s (exec reset power_on) = s power_on /\
  get_flag FlagI (p (exec reset power_on)) = get_flag FlagI (p power_on) /\
  pc (exec reset power_on) = pc (exec reset (exec reset power_on)).
Proof.
  split; [reflexivity |].
  apply (C1_reset_keeps_S_and_I power_on (exec reset power_on)).
  reflexivity.
Defined.

(** C7 (evaluated on the code).  From program start, where the globals are
    zero, no sequence of calls to [reset] and [main] ever sets bit 5 of
    [p]: the unused flag is 0 in every state the program reaches, against
    the "always 1" of the header comment. *)
Theorem C7_unused_flag_clear_from_power_on (cs : list call) :
  get_flag FlagUnused (p (exec (run_calls cs) power_on)) = false.
Proof. rewrite run_calls_flag. reflexivity. Qed.

(** C8.  For every prior CPU state, [reset] leaves the accumulator and the
    index registers X and Y unchanged. *)
Theorem C8_reset_keeps_A_X_Y (m : machine) :
  a (exec reset m) = a m /\ x (exec reset m) = x m /\ y (exec reset m) = y m.
Proof. rewrite exec_reset. repeat split. Qed.

(** C9.  For every prior CPU state, [reset] leaves the stack pointer S and
    the flags byte P unchanged, and its only effect is the assignment to
    PC: the state after it is the state before it with PC replaced. *)
Theorem C9_reset_only_assigns_pc (m : machine) :
  s (exec reset m) = s m /\
  p (exec reset m) = p m /\
  exec reset m = set_pc (pc (exec reset m)) m.
Proof. rewrite exec_reset. repeat split. Qed.

(** C10.  [main] performs no operation: for every state of the globals it
    returns 0 and leaves PC, S, P, A, X, Y and the memory unchanged. *)
Theorem C10_main_is_noop (m : machine) :
  result main m = 0 /\
  pc (exec main m) = pc m /\ s (exec main m) = s m /\ p (exec main m) = p m /\
  a (exec main m) = a m /\ x (exec main m) = x m /\ y (exec main m) = y m /\
  memory (exec main m) = memory m.
Proof. rewrite exec_main. repeat split. Qed.

(** ** Further properties of [reset] and [main] *)

Lemma set_pc_set_pc (v w : Z) (m : machine) : set_pc v (set_pc w m) = set_pc v m.
Proof. reflexivity. Qed.

Lemma run_calls_cons (c : call) (cs : list call) (m : machine) :
  exec (run_calls (c :: cs)) m = exec (run_calls cs) (exec (run_call c) m).
Proof. cbn [run_calls]. now rewrite exec_bind. Qed.

(** X1.  [reset] is idempotent: a second call right after a first changes
    nothing. *)
Theorem X1_reset_idempotent (m : machine) :
  exec (reset ;; reset) m = exec reset m.
Proof. rewrite exec_bind, !exec_reset. apply set_pc_set_pc. Qed.

(** X2.  What any sequence of calls to [reset] and [main] does: with no
    call to [reset] in it the globals are exactly as before; with at least
    one, the final state is the initial one with [pc] = $FFFC, every other
    register and the memory untouched, however many calls there were and in
    whatever order. *)
Theorem X2_run_calls_effect (cs : list call) (m : machine) :
  exec (run_calls cs) m = if calls_reset cs then set_pc 0xFFFC m else m.
Proof.
  revert m. induction cs as [| c cs IH]; intros m.
  - reflexivity.
  - rewrite run_calls_cons, exec_run_call, IH.
    destruct c; cbn [calls_reset existsb orb].
    + fold (calls_reset cs). now destruct (calls_reset cs).
    + reflexivity.
Qed.



